(** * Verification of the employee administration application (app.py)

    Shallow embedding of the validation and mutation logic of the Flask
    handlers [employee_add_execute], [employee_edit_update],
    [employee_del_execute], of the result renderers and of the filtered
    employee list.  Python strings are lists of Unicode code points
    ([list Z]); the SQLite table [employees] is a list of rows. *)

From Stdlib Require Import List ZArith Bool String Lia.
Import ListNotations.
Open Scope Z_scope.

(** ** Data model *)

(** A Python [str]: a sequence of Unicode code points. *)
Definition pystr := list Z.

(** One row of the [employees] table. *)
Record employee := mk_employee {
  emp_id : Z;
  emp_name : pystr;
  emp_salary : Z;
  emp_manager_id : Z;
  emp_birth_year : Z;
  emp_start_year : Z
}.

(** The [employees] table, in storage order. *)
Definition table := list employee.

(** The result-code endpoints the mutating handlers redirect to. *)
Inductive endpoint := employee_add_results_ep | employee_del_results_ep
                    | employee_edit_results_ep.

(** The response of a mutating request: a redirect carrying a result code
    (the post/redirect/get pattern), or an exception that escapes the
    handler (Flask answers it with an internal server error). *)
Inductive outcome :=
| Redirect (ep : endpoint) (code : string)
| Uncaught (exn : string).

(** The result code carried by an outcome, if any. *)
Definition outcome_code (o : outcome) : option string :=
  match o with Redirect _ c => Some c | Uncaught _ => None end.

(** ** RESULT_MESSAGES *)

Definition RESULT_MESSAGES : list (string * string) := [
  ("id-has-invalid-charactor",
   "指定された社員番号には使えない文字があります - " ++
   "数字のみで指定してください");
  ("id-already-exists",
   "指定された社員番号は既に存在します - " ++
   "存在しない社員番号を指定してください");
  ("id-does-not-exist",
   "指定された社員番号は存在しません");
  ("id-is-manager",
   "指定された社員番号の社員には部下がいます - " ++
   "部下に登録された上司を変更してから削除してください");
  ("manager-id-has-invalid-charactor",
   "指定された上司の社員番号には使えない文字があります - " ++
   "数字のみで指定してください");
  ("manager-id-does-not-exist",
   "指定された上司の社員番号が存在しません - " ++
   "既に存在する社員番号か追加する社員の社員番号と同じものを指定してください");
  ("salary-has-invalid-charactor",
   "指定された給与には使えない文字があります - " ++
   "数字のみで指定してください");
  ("birth-year-has-invalid-charactor",
   "指定された生年には使えない文字があります - " ++
   "数字のみで指定してください");
  ("start-year-has-invalid-charactor",
   "指定された入社年には使えない文字があります - " ++
   "数字のみで指定してください");
  ("name-has-control-charactor",
   "指定された名前には制御文字があります - " ++
   "制御文字は指定しないでください");
  ("database-error", "データベースエラー");
  ("added", "社員を追加しました");
  ("deleted", "削除しました");
  ("updated", "更新しました")
]%string.

(** Python's [dict.get(code, default)] on an association list. *)
Fixpoint dict_get (d : list (string * string)) (k : string) : option string :=
  match d with
  | [] => None
  | (k', v) :: d' => if String.eqb k k' then Some v else dict_get d' k
  end.

(** [RESULT_MESSAGES.get(code, 'code error')] *)
Definition result_message (code : string) : string :=
  match dict_get RESULT_MESSAGES code with
  | Some m => m
  | None => "code error"%string
  end.

(** A rendered page: the template name and its [results] argument. *)
Definition page := (string * string)%type.

Definition employee_add_results (code : string) : page :=
  ("employee-add-results.html"%string, result_message code).

Definition employee_del_results (code : string) : page :=
  ("employee-del-results.html"%string, result_message code).

Definition employee_edit_results (code : string) : page :=
  ("employee-edit-results.html"%string, result_message code).

(** ** has_control_character *)

(** [unicodedata.category(c) == 'Cc']: the general category Cc is a stable
    property of Unicode and consists of exactly U+0000..U+001F and
    U+007F..U+009F. *)
Definition is_Cc (c : Z) : bool :=
  ((0 <=? c) && (c <=? 31)) || ((127 <=? c) && (c <=? 159)).

(** [any(map(lambda c: unicodedata.category(c) == 'Cc', s))] *)
Definition has_control_character (s : pystr) : bool :=
  existsb is_Cc s.

(** ** Early-return monad of the request handlers

    [inl o] means the handler has already returned the response [o]
    (a [return redirect(...)] or an escaping exception); [inr a] means
    execution continues with the value [a]. *)
Definition M (A : Type) : Type := (outcome + A)%type.

Definition ret {A} (a : A) : M A := inr a.

Definition bind {A B} (m : M A) (k : A -> M B) : M B :=
  match m with
  | inl o => inl o
  | inr a => k a
  end.

Notation "x <- m ;; k" := (bind m (fun x => k))
  (at level 61, m at next level, right associativity).

(** [return redirect(url_for(ep, code=c))] *)
Definition redirect_to {A} (ep : endpoint) (c : string) : M A :=
  inl (Redirect ep c).

(** ** The SQLite binding *)

(** sqlite3 binds a Python [int] as a signed 64-bit INTEGER; outside that
    range binding raises [OverflowError] ("Python int too large to convert
    to SQLite INTEGER"), which is not an [sqlite3.Error]. *)
Definition fits_i64 (x : Z) : bool :=
  (- 2 ^ 63 <=? x) && (x <=? 2 ^ 63 - 1).

Definition bind_int (x : Z) : M Z :=
  if fits_i64 x then ret x else inl (Uncaught "OverflowError"%string).

(** [SELECT id FROM employees WHERE id = ?] followed by [fetchone()]. *)
Definition select_id (tbl : table) (x : Z) : M (option Z) :=
  x' <- bind_int x ;;
  ret (option_map emp_id (find (fun r => emp_id r =? x') tbl)).

(** [SELECT id FROM employees WHERE manager_id = ? AND id != ?] with both
    parameters [x], followed by [fetchone()]. *)
Definition select_member (tbl : table) (x : Z) : M (option Z) :=
  x1 <- bind_int x ;;
  x2 <- bind_int x ;;
  ret (option_map emp_id
         (find (fun r => (emp_manager_id r =? x1) && negb (emp_id r =? x2))
               tbl)).

(** Execution of a mutating statement whose parameters are already bound:
    [db_error] tells whether the storage engine raises [sqlite3.Error]
    (constraint violation, I/O or locking failure).  A failing statement
    leaves the table as it was; [None] is the caught [sqlite3.Error]. *)
Definition exec_mutation (db_error : bool) (t' : table) : M (option table) :=
  if db_error then ret None else ret (Some t').

(** [INSERT INTO employees (id, name, salary, manager_id, birth_year,
    start_year) VALUES (?, ?, ?, ?, ?, ?)] *)
Definition insert_row (tbl : table) (r : employee) (db_error : bool)
  : M (option table) :=
  _ <- bind_int (emp_id r) ;;
  _ <- bind_int (emp_salary r) ;;
  _ <- bind_int (emp_manager_id r) ;;
  _ <- bind_int (emp_birth_year r) ;;
  _ <- bind_int (emp_start_year r) ;;
  exec_mutation db_error (tbl ++ [r]).

(** [UPDATE employees SET name = ?, salary = ?, manager_id = ?,
    birth_year = ?, start_year = ? WHERE id = ?] *)
Definition update_rows (tbl : table) (name : pystr)
  (salary manager_id birth_year start_year id_num : Z) (db_error : bool)
  : M (option table) :=
  _ <- bind_int salary ;;
  _ <- bind_int manager_id ;;
  _ <- bind_int birth_year ;;
  _ <- bind_int start_year ;;
  _ <- bind_int id_num ;;
  exec_mutation db_error
    (map (fun r => if emp_id r =? id_num
                   then mk_employee (emp_id r) name salary manager_id
                          birth_year start_year
                   else r) tbl).

(** [DELETE FROM employees WHERE id = ?] *)
Definition delete_rows (tbl : table) (id_num : Z) (db_error : bool)
  : M (option table) :=
  _ <- bind_int id_num ;;
  exec_mutation db_error (filter (fun r => negb (emp_id r =? id_num)) tbl).

(** Leaves the monad: an early return keeps the table of the request, since
    nothing is committed before the final statement. *)
Definition run (tbl : table) (m : M (outcome * table)) : outcome * table :=
  match m with
  | inl o => (o, tbl)
  | inr p => p
  end.

(** ** The request handlers

    The handlers are parametric in Python's [int(str)] conversion: [None]
    stands for the [ValueError] it raises on text that is not an integer. *)

(** POST parameters of [/employee-add]. *)
Record add_form := mk_add_form {
  f_id : pystr;
  f_name : pystr;
  f_salary : pystr;
  f_manager_id : pystr;
  f_birth_year : pystr;
  f_start_year : pystr
}.

(** POST parameters of [/employee-edit/<id>]. *)
Record edit_form := mk_edit_form {
  e_name : pystr;
  e_salary : pystr;
  e_manager_id : pystr;
  e_birth_year : pystr;
  e_start_year : pystr
}.

Section Handlers.

Variable int_of_str : pystr -> option Z.

(** [try: x = int(s) except ValueError: return redirect(url_for(ep,
    code=c))] *)
Definition parse_int_or (s : pystr) (ep : endpoint) (c : string) : M Z :=
  match int_of_str s with
  | Some z => ret z
  | None => redirect_to ep c
  end.

(** The manager check shared by Add and Edit:
    [if id != manager_id:] look the manager up, and fail when absent. *)
Definition check_manager (tbl : table) (ep : endpoint) (id manager_id : Z)
  : M unit :=
  if negb (id =? manager_id) then
    manager <- select_id tbl manager_id ;;
    match manager with
    | None => redirect_to ep "manager-id-does-not-exist"%string
    | Some _ => ret tt
    end
  else ret tt.

(** [if has_control_character(name): return redirect(...)] *)
Definition check_name (ep : endpoint) (name : pystr) : M unit :=
  if has_control_character name
  then redirect_to ep "name-has-control-charactor"%string
  else ret tt.

Definition employee_add_execute (tbl : table) (f : add_form)
  (db_error : bool) : outcome * table :=
  let ep := employee_add_results_ep in
  run tbl (
    id <- parse_int_or (f_id f) ep "id-has-invalid-charactor" ;;
    employee <- select_id tbl id ;;
    _ <- match employee with
         | Some _ => redirect_to ep "id-already-exists"
         | None => ret tt
         end ;;
    manager_id <- parse_int_or (f_manager_id f) ep
                    "manager-id-has-invalid-charactor" ;;
    _ <- check_manager tbl ep id manager_id ;;
    salary <- parse_int_or (f_salary f) ep "salary-has-invalid-charactor" ;;
    birth_year <- parse_int_or (f_birth_year f) ep
                    "birth-year-has-invalid-charactor" ;;
    start_year <- parse_int_or (f_start_year f) ep
                    "start-year-has-invalid-charactor" ;;
    _ <- check_name ep (f_name f) ;;
    r <- insert_row tbl (mk_employee id (f_name f) salary manager_id
                           birth_year start_year) db_error ;;
    match r with
    | None => redirect_to ep "database-error"
    | Some t' => ret (Redirect ep "added", t')
    end)%string.

Definition employee_edit_update (tbl : table) (id : pystr) (f : edit_form)
  (db_error : bool) : outcome * table :=
  let ep := employee_edit_results_ep in
  run tbl (
    id_num <- parse_int_or id ep "id-has-invalid-charactor" ;;
    employee <- select_id tbl id_num ;;
    _ <- match employee with
         | None => redirect_to ep "id-does-not-exist"
         | Some _ => ret tt
         end ;;
    manager_id <- parse_int_or (e_manager_id f) ep
                    "manager-id-has-invalid-charactor" ;;
    _ <- check_manager tbl ep id_num manager_id ;;
    salary <- parse_int_or (e_salary f) ep "salary-has-invalid-charactor" ;;
    birth_year <- parse_int_or (e_birth_year f) ep
                    "birth-year-has-invalid-charactor" ;;
    start_year <- parse_int_or (e_start_year f) ep
                    "start-year-has-invalid-charactor" ;;
    _ <- check_name ep (e_name f) ;;
    r <- update_rows tbl (e_name f) salary manager_id birth_year start_year
           id_num db_error ;;
    match r with
    | None => redirect_to ep "database-error"
    | Some t' => ret (Redirect ep "updated", t')
    end)%string.

(** Note the three redirects of the source: the missing-record code is
    spelled ['id-does-not-exsit'], and the [database-error] and [deleted]
    redirects target [employee_add_results]. *)
Definition employee_del_execute (tbl : table) (id : pystr)
  (db_error : bool) : outcome * table :=
  run tbl (
    id_num <- parse_int_or id employee_del_results_ep
                "id-has-invalid-charactor" ;;
    employee <- select_id tbl id_num ;;
    _ <- match employee with
         | None => redirect_to employee_del_results_ep "id-does-not-exsit"
         | Some _ => ret tt
         end ;;
    member <- select_member tbl id_num ;;
    _ <- match member with
         | Some _ => redirect_to employee_del_results_ep "id-is-manager"
         | None => ret tt
         end ;;
    r <- delete_rows tbl id_num db_error ;;
    match r with
    | None => redirect_to employee_add_results_ep "database-error"
    | Some t' => ret (Redirect employee_add_results_ep "deleted", t')
    end)%string.

End Handlers.

(** ** A concrete [int(str)] for ASCII text

    CPython's [int(s)]: surrounding whitespace, an optional sign, decimal
    digits with single underscores between them.  This instance handles
    ASCII digits; it serves to run the handlers on concrete requests, and
    no theorem about the handlers depends on it. *)

Definition is_py_space (c : Z) : bool :=
  ((9 <=? c) && (c <=? 13)) || ((28 <=? c) && (c <=? 32)) || (c =? 133)
  || (c =? 160) || (c =? 5760) || ((8192 <=? c) && (c <=? 8202))
  || (c =? 8232) || (c =? 8233) || (c =? 8239) || (c =? 8287)
  || (c =? 12288).

Definition is_digit (c : Z) : bool := (48 <=? c) && (c <=? 57).

Fixpoint drop_space (s : pystr) : pystr :=
  match s with
  | c :: s' => if is_py_space c then drop_space s' else s
  | [] => []
  end.

Definition py_strip (s : pystr) : pystr :=
  rev (drop_space (rev (drop_space s))).

Fixpoint parse_digits (s : pystr) (acc : Z) : option Z :=
  match s with
  | [] => Some acc
  | c :: s' =>
      if is_digit c then parse_digits s' (acc * 10 + (c - 48))
      else if c =? 95 then
        match s' with
        | d :: s'' => if is_digit d then parse_digits s'' (acc * 10 + (d - 48))
                      else None
        | [] => None
        end
      else None
  end.

Definition parse_unsigned (s : pystr) : option Z :=
  match s with
  | d :: s' => if is_digit d then parse_digits s' (d - 48) else None
  | [] => None
  end.

Definition py_int (s : pystr) : option Z :=
  match py_strip s with
  | 43 :: r => parse_unsigned r
  | 45 :: r => option_map Z.opp (parse_unsigned r)
  | t => parse_unsigned t
  end.

(** ASCII literal to a Python [str]. *)
Definition u (s : string) : pystr :=
  map (fun a => Z.of_nat (Ascii.nat_of_ascii a)) (list_ascii_of_string s).

(** ** The Add validation sequence as the specification words it

    Independent reading of the specification: every check is evaluated on
    the request, the first failing one in the documented order gives the
    result code, and only when all pass is the insert attempted. *)

Definition in_table (tbl : table) (i : Z) : bool :=
  existsb (fun r => emp_id r =? i) tbl.

Fixpoint first_failure (checks : list (bool * string)) : option string :=
  match checks with
  | [] => None
  | (ok, c) :: cs => if ok then first_failure cs else Some c
  end.

Definition is_some {A} (o : option A) : bool :=
  match o with Some _ => true | None => false end.

Section AddSpec.

Variable int_of_str : pystr -> option Z.

Definition add_checks_spec (tbl : table) (f : add_form)
  : list (bool * string) :=
  let pid := int_of_str (f_id f) in
  let pmid := int_of_str (f_manager_id f) in
  [ (is_some pid, "id-has-invalid-charactor");
    (match pid with Some i => negb (in_table tbl i) | None => true end,
     "id-already-exists");
    (is_some pmid, "manager-id-has-invalid-charactor");
    (match pid, pmid with
     | Some i, Some m => Z.eqb m i || in_table tbl m
     | _, _ => true
     end, "manager-id-does-not-exist");
    (is_some (int_of_str (f_salary f)), "salary-has-invalid-charactor");
    (is_some (int_of_str (f_birth_year f)), "birth-year-has-invalid-charactor");
    (is_some (int_of_str (f_start_year f)), "start-year-has-invalid-charactor");
    (negb (has_control_character (f_name f)), "name-has-control-charactor")
  ]%string.

(** Step 9: the insert of the validated row and its result code. *)
Definition add_insert_attempt (tbl : table) (r : employee) (db_error : bool)
  : outcome * table :=
  run tbl (
    res <- insert_row tbl r db_error ;;
    match res with
    | None => redirect_to employee_add_results_ep "database-error"
    | Some t' => ret (Redirect employee_add_results_ep "added", t')
    end)%string.

Definition employee_add_spec (tbl : table) (f : add_form) (db_error : bool)
  : outcome * table :=
  match first_failure (add_checks_spec tbl f) with
  | Some c => (Redirect employee_add_results_ep c, tbl)
  | None =>
      match int_of_str (f_id f), int_of_str (f_manager_id f),
            int_of_str (f_salary f), int_of_str (f_birth_year f),
            int_of_str (f_start_year f) with
      | Some i, Some m, Some s, Some b, Some y =>
          add_insert_attempt tbl (mk_employee i (f_name f) s m b y) db_error
      | _, _, _, _, _ => (Redirect employee_add_results_ep EmptyString, tbl)
      end
  end%string.

End AddSpec.

(** ** The filtered list: SQLite's [LIKE]

    [SELECT id, name FROM employees WHERE name LIKE ?] with the form's
    [name_filter].  SQLite's built-in [like()] (func.c): [%] matches any
    sequence of characters, [_] exactly one, and other characters compare
    with case folding of ASCII letters only; no escape character is given.
    Both operands are read as C strings, so they end at the first U+0000;
    a pattern longer than SQLITE_MAX_LIKE_PATTERN_LENGTH (50000 bytes of
    UTF-8) makes the function fail with "LIKE or GLOB pattern too complex". *)

Definition ascii_lower (c : Z) : Z :=
  if (65 <=? c) && (c <=? 90) then c + 32 else c.

Fixpoint any_suffix (f : pystr -> bool) (s : pystr) : bool :=
  f s || match s with [] => false | _ :: s' => any_suffix f s' end.

Fixpoint like_match (p s : pystr) : bool :=
  match p with
  | [] => match s with [] => true | _ :: _ => false end
  | c :: p' =>
      if c =? 37 then any_suffix (like_match p') s
      else match s with
           | [] => false
           | d :: s' =>
               (if c =? 95 then true else ascii_lower c =? ascii_lower d)
               && like_match p' s'
           end
  end.

Fixpoint c_string (s : pystr) : pystr :=
  match s with
  | [] => []
  | c :: s' => if c =? 0 then [] else c :: c_string s'
  end.

Definition utf8_length (c : Z) : Z :=
  if c <? 128 then 1 else if c <? 2048 then 2 else if c <? 65536 then 3 else 4.

Definition utf8_bytes (s : pystr) : Z := fold_right Z.add 0 (map utf8_length s).

Definition SQLITE_MAX_LIKE_PATTERN_LENGTH : Z := 50000.

(** [name LIKE pattern]; [None] is the raised [sqlite3.OperationalError]. *)
Definition sql_like (pattern name : pystr) : option bool :=
  if SQLITE_MAX_LIKE_PATTERN_LENGTH <? utf8_bytes pattern then None
  else Some (like_match (c_string pattern) (c_string name)).

(** [employees_filtered]: the [(id, name)] rows selected, or [None] when the
    query raises (the handler does not catch it). *)
Fixpoint employees_filtered (tbl : table) (name_filter : pystr)
  : option (list (Z * pystr)) :=
  match tbl with
  | [] => Some []
  | r :: t =>
      match sql_like name_filter (emp_name r) with
      | None => None
      | Some b =>
          option_map (fun rest => if b then (emp_id r, emp_name r) :: rest
                                  else rest)
                     (employees_filtered t name_filter)
      end
  end.

(** ** Sequences of requests *)

(** A mutating request of the application. *)
Inductive request :=
| add_request (f : add_form)
| edit_request (id : pystr) (f : edit_form)
| del_request (id : pystr).

Definition handle (int_of_str : pystr -> option Z) (tbl : table)
  (req : request) (db_error : bool) : outcome * table :=
  match req with
  | add_request f => employee_add_execute int_of_str tbl f db_error
  | edit_request id f => employee_edit_update int_of_str tbl id f db_error
  | del_request id => employee_del_execute int_of_str tbl id db_error
  end.

(** The tables reachable from [t0] by a sequence of requests. *)
Inductive reachable (int_of_str : pystr -> option Z) (t0 : table)
  : table -> Prop :=
| reach_refl : reachable int_of_str t0 t0
| reach_step (t : table) (req : request) (db_error : bool) :
    reachable int_of_str t0 t ->
    reachable int_of_str t0 (snd (handle int_of_str t req db_error)).

(** Every INTEGER stored by SQLite is a signed 64-bit value. *)
Definition ids_in_range (tbl : table) : Prop :=
  forall r, In r tbl -> fits_i64 (emp_id r) = true.

(** ** Filters without LIKE wildcards *)

(** A filter with no [%], no [_] and no U+0000. *)
Definition plain_filter (p : pystr) : bool :=
  forallb (fun c => negb (c =? 37) && negb (c =? 95) && negb (c =? 0)) p.

Fixpoint zlist_eqb (a b : list Z) : bool :=
  match a, b with
  | [], [] => true
  | x :: a', y :: b' => (x =? y) && zlist_eqb a' b'
  | _, _ => false
  end.

(** ** The table invariant *)

(** Ids are unique, every manager_id is the row's own id or the id of an
    existing row, and no name contains a control character. *)
Definition valid_table (tbl : table) : Prop :=
  NoDup (map emp_id tbl) /\
  (forall r, In r tbl ->
     emp_manager_id r = emp_id r \/ In (emp_manager_id r) (map emp_id tbl)) /\
  (forall r, In r tbl -> has_control_character (emp_name r) = false).

(** ** Helpers and sample data *)

Fixpoint nodupb (l : list string) : bool :=
  match l with
  | [] => true
  | x :: l' => negb (existsb (String.eqb x) l') && nodupb l'
  end.

Definition alice_row : employee :=
  mk_employee 1 (u "Alice") 50000 1 1990 2015.

Definition bob_row : employee :=
  mk_employee 2 (u "Bob") 40000 1 1995 2020.

(** The decimal text of 2^63, one past the largest SQLite INTEGER. *)
Definition two_pow_63_text : pystr := u "9223372036854775808".

(** A request with several invalid fields: manager 7 does not exist, the
    salary is not a number and the name holds a TAB. *)
Definition multi_invalid_form : add_form :=
  mk_add_form (u "3") (9 :: u "Dan") (u "abc") (u "7") (u "19x0") (u "2015").

Definition alice_form : add_form :=
  mk_add_form (u "1") (u "Alice") (u "50000") (u "1") (u "1990") (u "2015").

(** An edit of Bob's record: new name and salary, same manager. *)
Definition bob_edit : edit_form :=
  mk_edit_form (u "Bobby") (u "45000") (u "1") (u "1995") (u "2020").

(** ** The page handlers (GET)

    A rendered page is a template with its argument; [Raised] is an
    exception that escapes the handler. *)

Inductive template_arg :=
| no_arg
| arg_list (e_list : list (Z * pystr))
| arg_employee (e : employee)
| arg_results (results : string)
| arg_id (id : Z).

Inductive get_page :=
| Rendered (template : string) (arg : template_arg)
| Raised (exn : string).

(** [employees]: [SELECT id, name FROM employees], all rows. *)
Definition employees (tbl : table) : get_page :=
  Rendered "employees.html"%string
    (arg_list (map (fun r => (emp_id r, emp_name r)) tbl)).

(** [employees_filtered] as a page: an escaping [sqlite3.OperationalError]
    when the LIKE pattern is refused. *)
Definition employees_filtered_page (tbl : table) (name_filter : pystr)
  : get_page :=
  match employees_filtered tbl name_filter with
  | Some e_list => Rendered "employees.html"%string (arg_list e_list)
  | None => Raised "OperationalError"%string
  end.

(** [SELECT * FROM employees WHERE id = ?] followed by [fetchone()];
    [None] is the [OverflowError] of the binding. *)
Definition select_row (tbl : table) (x : Z) : option (option employee) :=
  if fits_i64 x then Some (List.find (fun r => emp_id r =? x) tbl) else None.

Section PageHandlers.

Variable int_of_str : pystr -> option Z.

Definition employee_page (tbl : table) (id : pystr) : get_page :=
  match int_of_str id with
  | None => Rendered "employee-not-found.html"%string no_arg
  | Some id_num =>
      match select_row tbl id_num with
      | None => Raised "OverflowError"%string
      | Some None => Rendered "employee-not-found.html"%string no_arg
      | Some (Some e) => Rendered "employee.html"%string (arg_employee e)
      end
  end.

(** [employee_del] (GET): the confirmation page, or the reason why the
    record cannot be deleted. *)
Definition employee_del (tbl : table) (id : pystr) : get_page :=
  let results m := Rendered "employee-del-results.html"%string
                     (arg_results m) in
  match int_of_str id with
  | None => results "指定された社員番号には使えない文字があります"%string
  | Some id_num =>
      match select_id tbl id_num with
      | inl _ => Raised "OverflowError"%string
      | inr None => results "指定された社員番号は存在しません"%string
      | inr (Some _) =>
          match select_member tbl id_num with
          | inl _ => Raised "OverflowError"%string
          | inr (Some _) =>
              results ("指定された社員番号の社員には部下がいます - " ++
                       "部下に登録された上司を変更してから削除してください")%string
          | inr None => Rendered "employee-del.html"%string (arg_id id_num)
          end
      end
  end.

(** [employee_edit] (GET): the edit form filled with the record, or the
    reason why it cannot be edited. *)
Definition employee_edit (tbl : table) (id : pystr) : get_page :=
  let results m := Rendered "employee-edit-results.html"%string
                     (arg_results m) in
  match int_of_str id with
  | None => results "指定された社員番号には使えない文字があります"%string
  | Some id_num =>
      match select_row tbl id_num with
      | None => Raised "OverflowError"%string
      | Some None => results "指定された社員番号は存在しません"%string
      | Some (Some e) => Rendered "employee-edit.html"%string (arg_employee e)
      end
  end.

End PageHandlers.

(** * Properties *)

(** ** Helper lemmas on the message map *)

Lemma nodupb_NoDup (l : list string) : nodupb l = true -> NoDup l.
Proof.
  induction l as [|x l IH]; simpl; intros H.
  - constructor.
  - apply andb_prop in H as [Hx Hl].
    constructor; [|now apply IH].
    intros Hin. apply negb_true_iff in Hx.
    assert (existsb (String.eqb x) l = true) as Hc
      by (apply existsb_exists; exists x; split; [exact Hin|apply String.eqb_refl]).
    congruence.
Qed.

Lemma dict_get_None (d : list (string * string)) (k : string) :
  ~ In k (map fst d) -> dict_get d k = None.
Proof.
  induction d as [|[k' v] d IH]; simpl; intros Hn; [reflexivity|].
  destruct (String.eqb_spec k k') as [->|Hne].
  - exfalso. apply Hn. now left.
  - apply IH. intros Hin. apply Hn. now right.
Qed.

(** ** C8: the three result renderers *)

(** C8: for every code, the add, delete and edit results pages render the
    message that the 14-entry RESULT_MESSAGES map gives to it when the code
    is a key, and the generic "code error" message otherwise; the keys and
    the messages are pairwise distinct (a 1:1 map), "code error" is none of
    the messages, and the three renderers use the same map. *)
Theorem results_renderers_message :
  List.length RESULT_MESSAGES = 14%nat /\
  NoDup (map fst RESULT_MESSAGES) /\
  NoDup (map snd RESULT_MESSAGES) /\
  ~ In "code error"%string (map snd RESULT_MESSAGES) /\
  (forall code m, In (code, m) RESULT_MESSAGES ->
     snd (employee_add_results code) = m /\
     snd (employee_del_results code) = m /\
     snd (employee_edit_results code) = m) /\
  (forall code, ~ In code (map fst RESULT_MESSAGES) ->
     snd (employee_add_results code) = "code error"%string /\
     snd (employee_del_results code) = "code error"%string /\
     snd (employee_edit_results code) = "code error"%string).
Proof.
  split; [reflexivity|].
  split; [apply nodupb_NoDup; vm_compute; reflexivity|].
  split; [apply nodupb_NoDup; vm_compute; reflexivity|].
  split.
  { intros Hin. simpl in Hin.
    repeat (destruct Hin as [Hin|Hin]; [discriminate Hin|]); exact Hin. }
  split.
  - intros code m Hin. simpl in Hin.
    repeat (destruct Hin as [Hin|Hin];
            [injection Hin as <- <-; split; [|split]; reflexivity|]).
    destruct Hin.
  - intros code Hn. unfold employee_add_results, employee_del_results,
      employee_edit_results, result_message.
    rewrite (dict_get_None _ _ Hn). repeat split.
Qed.

(** ** C4: deleting a missing record *)

(** C4 (evaluation at the failing input): deleting id "1" from the empty
    table redirects with the code 'id-does-not-exsit', which is not a key of
    RESULT_MESSAGES, so the delete results page shows "code error" instead of
    the message of 'id-does-not-exist'. *)
Theorem del_missing_id_code :
  employee_del_execute py_int [] (u "1") false
    = (Redirect employee_del_results_ep "id-does-not-exsit"%string, []) /\
  snd (employee_del_results "id-does-not-exsit") = "code error"%string /\
  snd (employee_del_results "id-does-not-exist")
    = "指定された社員番号は存在しません"%string.
Proof. vm_compute. repeat split. Qed.

(** ** C9: redirect targets of the delete handler *)

(** C9 (evaluation at the failing input): with the self-managed row 1 in the
    table, a successful delete of "1" redirects to the add results endpoint
    with 'deleted', and a storage failure redirects to the add results
    endpoint with 'database-error'; the other outcomes target the delete
    results endpoint. *)
Theorem del_redirect_targets :
  employee_del_execute py_int [alice_row] (u "1") false
    = (Redirect employee_add_results_ep "deleted"%string, []) /\
  employee_del_execute py_int [alice_row] (u "1") true
    = (Redirect employee_add_results_ep "database-error"%string, [alice_row]) /\
  employee_del_execute py_int [alice_row; bob_row] (u "1") false
    = (Redirect employee_del_results_ep "id-is-manager"%string,
       [alice_row; bob_row]).
Proof. vm_compute. repeat split. Qed.

(** ** Lookups with an in-range parameter *)

Lemma find_id_in_table (tbl : table) (x : Z) :
  option_map emp_id (find (fun r => emp_id r =? x) tbl)
  = if in_table tbl x then Some x else None.
Proof.
  unfold in_table.
  induction tbl as [|r tbl IH]; cbn [find existsb]; [reflexivity|].
  destruct (Z.eqb_spec (emp_id r) x) as [E|Hne]; [simpl; now rewrite E|].
  exact IH.
Qed.

Lemma select_id_fits (tbl : table) (x : Z) :
  fits_i64 x = true ->
  select_id tbl x = ret (if in_table tbl x then Some x else None).
Proof.
  intros Hx. unfold select_id, bind_int. rewrite Hx. simpl.
  apply f_equal, find_id_in_table.
Qed.

(** ** C1: order of the Add checks *)

(** C1 (as amended): when the id and the manager_id of an Add request, if
    they parse as integers, lie in SQLite's signed 64-bit range, the handler
    behaves as the documented sequence: the first failing check among id
    parses, id is new, manager_id parses, manager exists unless it is the
    id itself, salary, birth_year and start_year parse, name has no control
    character gives the result code, and only when all pass is the insert
    attempted. *)
Theorem add_validation_order (int_of_str : pystr -> option Z) (tbl : table)
  (f : add_form) (db_error : bool)
  (Hid : forall i, int_of_str (f_id f) = Some i -> fits_i64 i = true)
  (Hmid : forall m, int_of_str (f_manager_id f) = Some m ->
                    fits_i64 m = true) :
  employee_add_execute int_of_str tbl f db_error
  = employee_add_spec int_of_str tbl f db_error.
Proof.
  unfold employee_add_execute, employee_add_spec, add_checks_spec,
    add_insert_attempt, parse_int_or, check_manager, check_name.
  destruct (int_of_str (f_id f)) as [i|] eqn:Ei; [|reflexivity].
  cbn [bind ret is_some first_failure negb].
  rewrite (select_id_fits _ _ (Hid i eq_refl)).
  destruct (in_table tbl i) eqn:Ein; [reflexivity|].
  cbn [bind ret is_some first_failure negb].
  destruct (int_of_str (f_manager_id f)) as [m|] eqn:Em; [|reflexivity].
  cbn [bind ret is_some first_failure negb].
  rewrite (Z.eqb_sym m i).
  destruct (Z.eqb i m) eqn:Eim; cbn [negb orb bind ret].
  2: rewrite (select_id_fits _ _ (Hmid m eq_refl));
     destruct (in_table tbl m); [cbn [bind ret]|reflexivity].
  all: destruct (int_of_str (f_salary f)); [|reflexivity];
       destruct (int_of_str (f_birth_year f)); [|reflexivity];
       destruct (int_of_str (f_start_year f)); [|reflexivity];
       cbn [bind ret is_some first_failure negb];
       destruct (has_control_character (f_name f)); reflexivity.
Qed.

(** C1 counterexample: id 2^63 with the invalid manager_id "x" raises an
    uncaught OverflowError at the id lookup, where the documented sequence
    reports 'manager-id-has-invalid-charactor'. *)
Lemma add_order_overflow_counterexample :
  let f := mk_add_form two_pow_63_text (u "Carol") (u "1") (u "x")
             (u "1990") (u "2015") in
  employee_add_execute py_int [] f false
    = (Uncaught "OverflowError"%string, []) /\
  employee_add_spec py_int [] f false
    = (Redirect employee_add_results_ep
         "manager-id-has-invalid-charactor"%string, []).
Proof. vm_compute. split; reflexivity. Qed.

Lemma add_validation_order_witness :
  employee_add_execute py_int [alice_row] multi_invalid_form false
  = employee_add_spec py_int [alice_row] multi_invalid_form false /\
  fst (employee_add_execute py_int [alice_row] multi_invalid_form false)
  = Redirect employee_add_results_ep "manager-id-does-not-exist"%string.
Proof.
  split.
  - apply add_validation_order; intros z Hz; vm_compute in Hz;
      injection Hz as <-; reflexivity.
  - vm_compute. reflexivity.
Defined.

(** Case analysis over every branch of a handler: the parser results, the
    range checks of the bindings, the lookups, the name check and the
    storage outcome. *)
Ltac split_handler :=
  unfold run, check_manager, check_name, select_id, select_member,
    insert_row, update_rows, delete_rows, parse_int_or, bind_int,
    exec_mutation, redirect_to, bind, ret;
  repeat (cbn;
    match goal with
    | |- context [?g ?a] =>
        match type of g with pystr -> option Z => destruct (g a) eqn:? end
    | |- context [fits_i64 ?a] => destruct (fits_i64 a) eqn:?
    | |- context [has_control_character ?a] =>
        destruct (has_control_character a) eqn:?
    | |- context [List.find ?g ?t] => destruct (List.find g t) eqn:?
    | |- context [Z.eqb ?a ?b] => destruct (Z.eqb a b) eqn:?
    | |- context [match ?x with _ => _ end] => is_var x; destruct x eqn:?
    end);
  cbn.

(** ** Case analysis of the handlers *)

Section HandlerCases.

Local Opaque fits_i64 has_control_character Z.eqb.

Lemma add_failure_keeps_table (int_of_str : pystr -> option Z) (tbl : table)
  (f : add_form) (db_error : bool) :
  fst (employee_add_execute int_of_str tbl f db_error)
    <> Redirect employee_add_results_ep "added"%string ->
  snd (employee_add_execute int_of_str tbl f db_error) = tbl.
Proof.
  unfold employee_add_execute. split_handler; congruence.
Qed.

Lemma edit_failure_keeps_table (int_of_str : pystr -> option Z)
  (tbl : table) (id : pystr) (f : edit_form) (db_error : bool) :
  fst (employee_edit_update int_of_str tbl id f db_error)
    <> Redirect employee_edit_results_ep "updated"%string ->
  snd (employee_edit_update int_of_str tbl id f db_error) = tbl.
Proof.
  unfold employee_edit_update. split_handler; congruence.
Qed.

Lemma del_failure_keeps_table (int_of_str : pystr -> option Z)
  (tbl : table) (id : pystr) (db_error : bool) :
  fst (employee_del_execute int_of_str tbl id db_error)
    <> Redirect employee_add_results_ep "deleted"%string ->
  snd (employee_del_execute int_of_str tbl id db_error) = tbl.
Proof.
  unfold employee_del_execute. split_handler; congruence.
Qed.

Lemma add_validation_failure_repeat (int_of_str : pystr -> option Z)
  (tbl : table) (f : add_form) (d1 d2 : bool) (c : string) :
  fst (employee_add_execute int_of_str tbl f d1)
    = Redirect employee_add_results_ep c ->
  c <> "added"%string -> c <> "database-error"%string ->
  employee_add_execute int_of_str tbl f d2
    = (Redirect employee_add_results_ep c, tbl).
Proof.
  unfold employee_add_execute. split_handler; congruence.
Qed.

Lemma find_id_some (tbl : table) (x : Z) (e : employee) :
  List.find (fun r => emp_id r =? x) tbl = Some e -> In x (map emp_id tbl).
Proof.
  intros H. apply find_some in H as [Hin He]. apply Z.eqb_eq in He.
  rewrite <- He. now apply in_map.
Qed.

Lemma find_id_none (tbl : table) (x : Z) :
  List.find (fun r => emp_id r =? x) tbl = None -> ~ In x (map emp_id tbl).
Proof.
  intros H Hin. apply in_map_iff in Hin as [r [Er Hr]].
  pose proof (find_none _ _ H r Hr) as Hf. cbv beta in Hf.
  rewrite Er, Z.eqb_refl in Hf. discriminate.
Qed.

Lemma valid_append (tbl : table) (r : employee) :
  valid_table tbl -> ~ In (emp_id r) (map emp_id tbl) ->
  (emp_manager_id r = emp_id r \/ In (emp_manager_id r) (map emp_id tbl)) ->
  has_control_character (emp_name r) = false ->
  valid_table (tbl ++ [r]).
Proof.
  intros [Hn [Hm Hc]] Hnew Hr Hname. unfold valid_table. rewrite map_app.
  split; [|split].
  - apply NoDup_app; [exact Hn | constructor; [intros []|constructor] |].
    intros a Ha [Hb|[]]. subst a. contradiction.
  - intros x Hx. apply in_app_or in Hx as [Hx|[<-|[]]].
    + destruct (Hm x Hx) as [E|E]; [now left | right; apply in_or_app; now left].
    + destruct Hr as [E|E]; [now left | right; apply in_or_app; now left].
  - intros x Hx. apply in_app_or in Hx as [Hx|[<-|[]]]; auto.
Qed.

Lemma valid_update (tbl : table) (name : pystr) (s m b y z : Z) :
  valid_table tbl ->
  (m = z \/ In m (map emp_id tbl)) ->
  has_control_character name = false ->
  valid_table (map (fun r => if emp_id r =? z
                             then mk_employee (emp_id r) name s m b y
                             else r) tbl).
Proof.
  intros [Hn [Hm Hc]] Hmgr Hname. unfold valid_table.
  assert (Hids : map emp_id (map (fun r => if emp_id r =? z
                                            then mk_employee (emp_id r) name s m b y
                                            else r) tbl) = map emp_id tbl).
  { rewrite map_map. apply map_ext. intros r. now destruct (emp_id r =? z). }
  rewrite Hids. split; [exact Hn|split].
  - intros x Hx. apply in_map_iff in Hx as [r [<- Hr]].
    destruct (emp_id r =? z) eqn:E; [|now apply Hm].
    apply Z.eqb_eq in E. cbn. destruct Hmgr as [->|Hin]; [left; now symmetry|now right].
  - intros x Hx. apply in_map_iff in Hx as [r [<- Hr]].
    destruct (emp_id r =? z); [exact Hname|now apply Hc].
Qed.

Lemma NoDup_map_filter (f : employee -> Z) (p : employee -> bool) (l : table) :
  NoDup (map f l) -> NoDup (map f (filter p l)).
Proof.
  induction l as [|a l IH]; cbn; intros H; [constructor|].
  inversion H as [|? ? Hnin Hl]; subst.
  destruct (p a); cbn; [constructor|]; auto.
  intros Hin. apply Hnin. apply in_map_iff in Hin as [x [Ex Hx]].
  apply filter_In in Hx as [Hx _]. rewrite <- Ex. now apply in_map.
Qed.

Lemma valid_delete (tbl : table) (z : Z) :
  valid_table tbl ->
  List.find (fun r => (emp_manager_id r =? z) && negb (emp_id r =? z)) tbl
    = None ->
  valid_table (filter (fun r => negb (emp_id r =? z)) tbl).
Proof.
  intros [Hn [Hm Hc]] Hsub. split; [|split].
  - now apply NoDup_map_filter.
  - intros x Hx. apply filter_In in Hx as [Hx Hxz].
    destruct (Hm x Hx) as [E|Hin]; [now left|right].
    pose proof (find_none _ _ Hsub x Hx) as Hf. cbv beta in Hf.
    rewrite Hxz, andb_true_r in Hf.
    apply in_map_iff in Hin as [y [Ey Hy]].
    rewrite <- Ey. apply in_map. apply filter_In. split; [exact Hy|].
    rewrite Ey, Hf. reflexivity.
  - intros x Hx. apply filter_In in Hx as [Hx _]. now apply Hc.
Qed.

Lemma add_preserves_valid (int_of_str : pystr -> option Z) (tbl : table)
  (f : add_form) (db_error : bool) :
  valid_table tbl ->
  valid_table (snd (employee_add_execute int_of_str tbl f db_error)).
Proof.
  intros Hv. unfold employee_add_execute. split_handler; try exact Hv.
  all: apply valid_append; cbn; [exact Hv | eapply find_id_none; eassumption
       | | assumption].
  all: first [ left; symmetry; apply Z.eqb_eq; assumption
             | right; eapply find_id_some; eassumption ].
Qed.

Lemma edit_preserves_valid (int_of_str : pystr -> option Z) (tbl : table)
  (id : pystr) (f : edit_form) (db_error : bool) :
  valid_table tbl ->
  valid_table (snd (employee_edit_update int_of_str tbl id f db_error)).
Proof.
  intros Hv. unfold employee_edit_update. split_handler; try exact Hv.
  all: apply valid_update; [exact Hv | | assumption].
  all: first [ left; symmetry; apply Z.eqb_eq; assumption
             | right; eapply find_id_some; eassumption ].
Qed.

Lemma del_preserves_valid (int_of_str : pystr -> option Z) (tbl : table)
  (id : pystr) (db_error : bool) :
  valid_table tbl ->
  valid_table (snd (employee_del_execute int_of_str tbl id db_error)).
Proof.
  intros Hv. unfold employee_del_execute. split_handler; try exact Hv.
  all: apply valid_delete; assumption.
Qed.

End HandlerCases.

(** ** C2: failed requests leave the table unchanged *)

(** C2: an Add, Edit or Delete request that does not succeed (a validation
    failure, a storage error, or an escaping exception) leaves the table as
    it was; an Add that fails validation, repeated with the same payload on
    the resulting table, fails again with the same code and the same table,
    whatever the storage engine does. *)
Theorem failed_requests_keep_table (int_of_str : pystr -> option Z)
  (tbl : table) (f : add_form) (id : pystr) (ef : edit_form)
  (d1 d2 : bool) :
  (fst (employee_add_execute int_of_str tbl f d1)
     <> Redirect employee_add_results_ep "added"%string ->
   snd (employee_add_execute int_of_str tbl f d1) = tbl) /\
  (fst (employee_edit_update int_of_str tbl id ef d1)
     <> Redirect employee_edit_results_ep "updated"%string ->
   snd (employee_edit_update int_of_str tbl id ef d1) = tbl) /\
  (fst (employee_del_execute int_of_str tbl id d1)
     <> Redirect employee_add_results_ep "deleted"%string ->
   snd (employee_del_execute int_of_str tbl id d1) = tbl) /\
  (forall c, fst (employee_add_execute int_of_str tbl f d1)
               = Redirect employee_add_results_ep c ->
   c <> "added"%string -> c <> "database-error"%string ->
   snd (employee_add_execute int_of_str tbl f d1) = tbl /\
   employee_add_execute int_of_str
     (snd (employee_add_execute int_of_str tbl f d1)) f d2
   = (Redirect employee_add_results_ep c, tbl)).
Proof.
  split; [apply add_failure_keeps_table|].
  split; [apply edit_failure_keeps_table|].
  split; [apply del_failure_keeps_table|].
  intros c Hc Ha Hd.
  assert (Ht : snd (employee_add_execute int_of_str tbl f d1) = tbl).
  { apply add_failure_keeps_table. rewrite Hc. congruence. }
  split; [exact Ht|]. rewrite Ht.
  eapply add_validation_failure_repeat; eassumption.
Qed.

Lemma failed_requests_keep_table_witness :
  snd (employee_add_execute py_int [alice_row] multi_invalid_form false)
    = [alice_row] /\
  employee_add_execute py_int
    (snd (employee_add_execute py_int [alice_row] multi_invalid_form false))
    multi_invalid_form true
  = (Redirect employee_add_results_ep "manager-id-does-not-exist"%string,
     [alice_row]).
Proof.
  destruct (failed_requests_keep_table py_int [alice_row] multi_invalid_form
              (u "1") (mk_edit_form [] [] [] [] []) false true)
    as [_ [_ [_ H]]].
  apply H; [vm_compute; reflexivity | discriminate | discriminate].
Defined.

(** ** C3: the invariant holds on every reachable table *)

(** C3: from a table with unique ids, valid manager references and names
    free of control characters, every table reached by a sequence of Add,
    Edit and Delete requests (whatever their outcome) keeps these three
    properties. *)
Theorem reachable_valid (int_of_str : pystr -> option Z) (t0 t : table) :
  valid_table t0 -> reachable int_of_str t0 t -> valid_table t.
Proof.
  intros H0 Hr. induction Hr as [|t req d Hr IH]; [exact H0|].
  destruct req as [f|id f|id]; cbn [handle].
  - now apply add_preserves_valid.
  - now apply edit_preserves_valid.
  - now apply del_preserves_valid.
Qed.

Lemma reachable_valid_witness : valid_table [alice_row].
Proof.
  apply (reachable_valid py_int []).
  - split; [constructor|split; intros ? []].
  - change [alice_row]
      with (snd (handle py_int [] (add_request alice_form) false)).
    apply reach_step. apply reach_refl.
Defined.

(** ** C5: the subordinate guard of Delete *)

Lemma in_table_spec (tbl : table) (x : Z) :
  in_table tbl x = true <-> In x (map emp_id tbl).
Proof.
  unfold in_table. rewrite existsb_exists, in_map_iff. split.
  - intros [r [Hr E]]. apply Z.eqb_eq in E. now exists r.
  - intros [r [E Hr]]. exists r. split; [exact Hr|]. now apply Z.eqb_eq.
Qed.

(** C5: deleting an existing id fails with 'id-is-manager', leaving the
    table as it was, exactly when another row (with a different id) has
    that id as manager_id; a row that only manages itself is deleted with
    the code 'deleted' when the storage engine accepts the statement. *)
Theorem del_manager_guard (int_of_str : pystr -> option Z) (tbl : table)
  (id : pystr) (x : Z) (db_error : bool)
  (Hp : int_of_str id = Some x) (Hx : In x (map emp_id tbl))
  (Hrange : ids_in_range tbl) :
  (fst (employee_del_execute int_of_str tbl id db_error)
     = Redirect employee_del_results_ep "id-is-manager"%string <->
   exists r, In r tbl /\ emp_manager_id r = x /\ emp_id r <> x) /\
  (fst (employee_del_execute int_of_str tbl id db_error)
     = Redirect employee_del_results_ep "id-is-manager"%string ->
   snd (employee_del_execute int_of_str tbl id db_error) = tbl) /\
  ((forall r, In r tbl -> emp_manager_id r = x -> emp_id r = x) ->
   db_error = false ->
   outcome_code (fst (employee_del_execute int_of_str tbl id db_error))
     = Some "deleted"%string /\
   snd (employee_del_execute int_of_str tbl id db_error)
     = filter (fun r => negb (emp_id r =? x)) tbl).
Proof.
  assert (Hfit : fits_i64 x = true).
  { apply in_map_iff in Hx as [r [<- Hr]]. now apply Hrange. }
  unfold employee_del_execute, parse_int_or. rewrite Hp. cbn [bind ret].
  rewrite (select_id_fits _ _ Hfit).
  replace (in_table tbl x) with true by (symmetry; now apply in_table_spec).
  cbn [bind ret]. unfold select_member, delete_rows, bind_int.
  rewrite Hfit. cbn [bind ret].
  destruct (List.find _ tbl) as [e|] eqn:Ef; cbn [option_map bind ret].
  - apply find_some in Ef as [He Hm].
    apply andb_prop in Hm as [Hm Hi]. apply Z.eqb_eq in Hm.
    apply negb_true_iff, Z.eqb_neq in Hi.
    cbn. split; [|split].
    + split; [intros _; now exists e | reflexivity].
    + reflexivity.
    + intros Hall _. exfalso. exact (Hi (Hall e He Hm)).
  - split; [|split].
    + split.
      * destruct db_error; cbn; discriminate.
      * intros [r [Hr [Hm Hi]]].
        pose proof (find_none _ _ Ef r Hr) as Hf. cbv beta in Hf.
        rewrite Hm, Z.eqb_refl in Hf. apply Z.eqb_neq in Hi.
        rewrite Hi in Hf. discriminate.
    + destruct db_error; cbn; discriminate.
    + intros _ ->. cbn. split; reflexivity.
Qed.

Lemma del_manager_guard_witness :
  fst (employee_del_execute py_int [alice_row; bob_row] (u "1") false)
    = Redirect employee_del_results_ep "id-is-manager"%string.
Proof.
  apply (del_manager_guard py_int [alice_row; bob_row] (u "1") 1 false).
  - vm_compute. reflexivity.
  - cbn. now left.
  - intros r [<-|[<-|[]]]; reflexivity.
  - exists bob_row. split; [cbn; auto|split; [reflexivity|discriminate]].
Defined.

(** ** C6: the manager-existence check *)

Lemma in_table_false (tbl : table) (x : Z) :
  ~ In x (map emp_id tbl) -> in_table tbl x = false.
Proof.
  intros Hn. destruct (in_table tbl x) eqn:E; [|reflexivity].
  apply in_table_spec in E. contradiction.
Qed.

(** C6 (as amended): a manager_id equal to the id passes the manager check
    without a lookup, whatever the table; an Add (new id) or Edit (existing
    id) request whose parsed manager_id differs from the id and names no
    row, with both values in the signed 64-bit range, ends with
    'manager-id-does-not-exist' and an unchanged table. *)
Theorem manager_existence_rule :
  (forall tbl ep id manager_id, manager_id = id ->
     check_manager tbl ep id manager_id = ret tt) /\
  (forall int_of_str tbl f db_error i m,
     int_of_str (f_id f) = Some i -> fits_i64 i = true ->
     ~ In i (map emp_id tbl) ->
     int_of_str (f_manager_id f) = Some m -> m <> i ->
     ~ In m (map emp_id tbl) -> fits_i64 m = true ->
     employee_add_execute int_of_str tbl f db_error
     = (Redirect employee_add_results_ep "manager-id-does-not-exist"%string,
        tbl)) /\
  (forall int_of_str tbl id ef db_error i m,
     int_of_str id = Some i -> fits_i64 i = true -> In i (map emp_id tbl) ->
     int_of_str (e_manager_id ef) = Some m -> m <> i ->
     ~ In m (map emp_id tbl) -> fits_i64 m = true ->
     employee_edit_update int_of_str tbl id ef db_error
     = (Redirect employee_edit_results_ep "manager-id-does-not-exist"%string,
        tbl)).
Proof.
  split; [|split].
  - intros tbl ep id m ->. unfold check_manager. now rewrite Z.eqb_refl.
  - intros int_of_str tbl f d i m Hi Hfi Hni Hm Hmi Hnm Hfm.
    unfold employee_add_execute, parse_int_or. rewrite Hi. cbn [bind ret].
    rewrite (select_id_fits _ _ Hfi), (in_table_false _ _ Hni).
    cbn [bind ret]. rewrite Hm. cbn [bind ret]. unfold check_manager.
    replace (i =? m) with false by (symmetry; apply Z.eqb_neq; congruence).
    rewrite (select_id_fits _ _ Hfm), (in_table_false _ _ Hnm).
    reflexivity.
  - intros int_of_str tbl id ef d i m Hi Hfi Hii Hm Hmi Hnm Hfm.
    unfold employee_edit_update, parse_int_or. rewrite Hi. cbn [bind ret].
    rewrite (select_id_fits _ _ Hfi).
    replace (in_table tbl i) with true by (symmetry; now apply in_table_spec).
    cbn [bind ret]. rewrite Hm. cbn [bind ret]. unfold check_manager.
    replace (i =? m) with false by (symmetry; apply Z.eqb_neq; congruence).
    rewrite (select_id_fits _ _ Hfm), (in_table_false _ _ Hnm).
    reflexivity.
Qed.

Lemma manager_existence_rule_witness :
  employee_add_execute py_int [alice_row] multi_invalid_form false
  = (Redirect employee_add_results_ep "manager-id-does-not-exist"%string,
     [alice_row]).
Proof.
  destruct manager_existence_rule as [_ [H _]].
  apply (H py_int [alice_row] multi_invalid_form false 3 7).
  - vm_compute. reflexivity.
  - vm_compute. reflexivity.
  - intros [E|[]]. discriminate E.
  - vm_compute. reflexivity.
  - discriminate.
  - intros [E|[]]. discriminate E.
  - vm_compute. reflexivity.
Defined.

(** C6 counterexample: for id 1 on the empty table and manager_id 2^63, the
    manager lookup raises an uncaught OverflowError instead of producing
    'manager-id-does-not-exist'. *)
Lemma manager_overflow_counterexample :
  employee_add_execute py_int []
    (mk_add_form (u "1") (u "Carol") (u "1") two_pow_63_text (u "1990")
       (u "2015")) false
  = (Uncaught "OverflowError"%string, []).
Proof. vm_compute. reflexivity. Qed.

(** ** C7: the control-character check of the name *)

(** C7: the name check of Add and Edit fails with
    'name-has-control-charactor' exactly when the name has a code point of
    general category Cc, and passes exactly when all code points are of
    other categories, e.g. for a Japanese name with an ideographic space and
    an accented letter. *)
Theorem name_control_check (ep : endpoint) (s : pystr) :
  (check_name ep s = redirect_to ep "name-has-control-charactor"%string <->
   exists c, In c s /\ is_Cc c = true) /\
  (check_name ep s = ret tt <-> forall c, In c s -> is_Cc c = false) /\
  check_name ep [23665; 30000; 12288; 22826; 37070; 233] = ret tt.
Proof.
  unfold check_name, has_control_character.
  split; [|split; [|reflexivity]].
  - rewrite <- existsb_exists.
    destruct (existsb is_Cc s); split; intros H; try reflexivity;
      discriminate H.
  - destruct (existsb is_Cc s) eqn:E; split; intros H.
    + discriminate H.
    + apply existsb_exists in E as [c [Hc Hcc]]. rewrite (H c Hc) in Hcc.
      discriminate Hcc.
    + intros c Hc. destruct (is_Cc c) eqn:Ec; [|reflexivity].
      assert (existsb is_Cc s = true) by (apply existsb_exists; now exists c).
      congruence.
    + reflexivity.
Qed.

(** ** C10: the name filter of the list *)

Lemma any_suffix_empty_pattern (s : pystr) : any_suffix (like_match []) s = true.
Proof. induction s as [|c s IH]; cbn; [reflexivity|exact IH]. Qed.

Lemma like_match_plain (p s : pystr) :
  forallb (fun c => negb (c =? 37) && negb (c =? 95) && negb (c =? 0)) p
    = true ->
  like_match p s = zlist_eqb (map ascii_lower p) (map ascii_lower s).
Proof.
  revert s. induction p as [|c p IH]; intros s H.
  - destruct s; reflexivity.
  - cbn in H. apply andb_prop in H as [Hc Hp].
    apply andb_prop in Hc as [Hc _]. apply andb_prop in Hc as [H37 H95].
    apply negb_true_iff in H37, H95.
    cbn [like_match]. rewrite H37.
    destruct s as [|d s]; [reflexivity|].
    rewrite H95. cbn [map zlist_eqb]. now rewrite (IH s Hp).
Qed.

Lemma c_string_no_control (s : pystr) :
  has_control_character s = false -> c_string s = s.
Proof.
  unfold has_control_character.
  induction s as [|c s IH]; cbn; intros H; [reflexivity|].
  apply orb_false_iff in H as [Hc Hs].
  destruct (Z.eqb_spec c 0) as [->|_]; [discriminate Hc|].
  now rewrite (IH Hs).
Qed.

Lemma c_string_plain (p : pystr) : plain_filter p = true -> c_string p = p.
Proof.
  unfold plain_filter.
  induction p as [|c p IH]; cbn; intros H; [reflexivity|].
  apply andb_prop in H as [Hc Hp]. apply andb_prop in Hc as [_ H0].
  apply negb_true_iff in H0. rewrite H0. now rewrite (IH Hp).
Qed.

Lemma employees_filtered_by (tbl : table) (p : pystr) (g : employee -> bool) :
  (forall r, In r tbl -> sql_like p (emp_name r) = Some (g r)) ->
  employees_filtered tbl p
  = Some (map (fun r => (emp_id r, emp_name r)) (filter g tbl)).
Proof.
  induction tbl as [|r tbl IH]; cbn; intros H; [reflexivity|].
  rewrite (H r (or_introl eq_refl)).
  rewrite IH by (intros x Hx; apply H; now right).
  cbn. now destruct (g r).
Qed.

(** C10 (as amended): the filter is a SQLite LIKE pattern taken verbatim:
    '%' returns every employee, '_' matches exactly one character, and on a
    table whose names hold no control character a filter of at most 50000
    UTF-8 bytes with no '%', '_' or U+0000 selects exactly the names equal
    to it up to the case of ASCII letters (so a mere substring does not
    match); the empty filter selects exactly the empty names. *)
Theorem name_filter_like (tbl : table) :
  employees_filtered tbl [37]
    = Some (map (fun r => (emp_id r, emp_name r)) tbl) /\
  (forall p c s, like_match (95 :: p) (c :: s) = like_match p s) /\
  (forall p, like_match (95 :: p) [] = false) /\
  (forall p, plain_filter p = true -> utf8_bytes p <= 50000 ->
   (forall r, In r tbl -> has_control_character (emp_name r) = false) ->
   employees_filtered tbl p
   = Some (map (fun r => (emp_id r, emp_name r))
             (filter (fun r => zlist_eqb (map ascii_lower p)
                                         (map ascii_lower (emp_name r)))
                     tbl))) /\
  ((forall r, In r tbl -> has_control_character (emp_name r) = false) ->
   employees_filtered tbl []
   = Some (map (fun r => (emp_id r, emp_name r))
             (filter (fun r => match emp_name r with
                               | [] => true
                               | _ :: _ => false
                               end) tbl))).
Proof.
  split; [|split; [|split; [|split]]].
  - rewrite <- (filter_true tbl) at 2 by reflexivity.
    apply employees_filtered_by. intros r _. unfold sql_like. cbn.
    now rewrite any_suffix_empty_pattern.
  - reflexivity.
  - reflexivity.
  - intros p Hp Hlen Hnames. apply employees_filtered_by. intros r Hr.
    unfold sql_like.
    replace (SQLITE_MAX_LIKE_PATTERN_LENGTH <? utf8_bytes p) with false
      by (symmetry; apply Z.ltb_ge; exact Hlen).
    rewrite (c_string_plain p Hp), (c_string_no_control _ (Hnames r Hr)).
    f_equal. apply like_match_plain. exact Hp.
  - intros Hnames. apply employees_filtered_by. intros r Hr.
    unfold sql_like. cbn.
    rewrite (c_string_no_control _ (Hnames r Hr)).
    now destruct (emp_name r).
Qed.

Lemma name_filter_like_witness :
  employees_filtered [alice_row; bob_row] (u "ALICE")
  = Some [(1, u "Alice")].
Proof.
  destruct (name_filter_like [alice_row; bob_row]) as [_ [_ [_ [H _]]]].
  rewrite H.
  - reflexivity.
  - vm_compute. reflexivity.
  - vm_compute. discriminate.
  - intros r [<-|[<-|[]]]; reflexivity.
Defined.

(** C10 counterexample: the filter "alice" selects the employee named
    "Alice", whose name is not equal to it. *)
Lemma name_filter_case_counterexample :
  employees_filtered [alice_row] (u "alice") = Some [(1, u "Alice")] /\
  u "alice" <> u "Alice".
Proof. split; [vm_compute; reflexivity|discriminate]. Qed.

(** * Further properties of the handlers *)

(** ** Shapes of successful requests *)

Section SuccessShapes.

Local Opaque fits_i64 has_control_character Z.eqb.

Lemma add_success_shape (int_of_str : pystr -> option Z) (tbl : table)
  (f : add_form) (db_error : bool) :
  fst (employee_add_execute int_of_str tbl f db_error)
    = Redirect employee_add_results_ep "added"%string ->
  exists i s m b y,
    int_of_str (f_id f) = Some i /\ int_of_str (f_salary f) = Some s /\
    int_of_str (f_manager_id f) = Some m /\
    int_of_str (f_birth_year f) = Some b /\
    int_of_str (f_start_year f) = Some y /\
    fits_i64 i = true /\
    List.find (fun r => emp_id r =? i) tbl = None /\
    snd (employee_add_execute int_of_str tbl f db_error)
      = tbl ++ [mk_employee i (f_name f) s m b y].
Proof.
  unfold employee_add_execute. split_handler; try discriminate.
  all: intros _; do 5 eexists; repeat split; first [reflexivity|eassumption].
Qed.

Lemma edit_success_shape (int_of_str : pystr -> option Z) (tbl : table)
  (id : pystr) (ef : edit_form) (db_error : bool) :
  fst (employee_edit_update int_of_str tbl id ef db_error)
    = Redirect employee_edit_results_ep "updated"%string ->
  exists x s m b y,
    int_of_str id = Some x /\ int_of_str (e_salary ef) = Some s /\
    int_of_str (e_manager_id ef) = Some m /\
    int_of_str (e_birth_year ef) = Some b /\
    int_of_str (e_start_year ef) = Some y /\
    fits_i64 x = true /\ fits_i64 s = true /\ fits_i64 m = true /\
    fits_i64 b = true /\ fits_i64 y = true /\
    (exists e, List.find (fun r => emp_id r =? x) tbl = Some e) /\
    ((x =? m) = true \/
     exists e, List.find (fun r => emp_id r =? m) tbl = Some e) /\
    has_control_character (e_name ef) = false /\
    snd (employee_edit_update int_of_str tbl id ef db_error)
      = map (fun r => if emp_id r =? x
                      then mk_employee (emp_id r) (e_name ef) s m b y
                      else r) tbl.
Proof.
  unfold employee_edit_update. split_handler; try discriminate.
  all: intros _; do 5 eexists; repeat split.
  all: first [ reflexivity | eassumption | eexists; eassumption
             | left; assumption | right; eexists; eassumption ].
Qed.

Lemma del_success_shape (int_of_str : pystr -> option Z) (tbl : table)
  (id : pystr) (db_error : bool) :
  fst (employee_del_execute int_of_str tbl id db_error)
    = Redirect employee_add_results_ep "deleted"%string ->
  exists x,
    int_of_str id = Some x /\ fits_i64 x = true /\
    (exists e, List.find (fun r => emp_id r =? x) tbl = Some e) /\
    snd (employee_del_execute int_of_str tbl id db_error)
      = filter (fun r => negb (emp_id r =? x)) tbl.
Proof.
  unfold employee_del_execute. split_handler; try discriminate.
  all: intros _; eexists; repeat split.
  all: first [ reflexivity | eassumption | eexists; eassumption ].
Qed.

End SuccessShapes.

(** ** Lemmas on lookups *)

Lemma NoDup_map_same (f : employee -> Z) (l : table) (a b : employee) :
  NoDup (map f l) -> In a l -> In b l -> f a = f b -> a = b.
Proof.
  induction l as [|c l IH]; cbn; intros Hn Ha Hb E; [destruct Ha|].
  inversion Hn as [|? ? Hc Hl]; subst.
  destruct Ha as [<-|Ha], Hb as [<-|Hb]; try reflexivity.
  - exfalso. apply Hc. rewrite E. now apply in_map.
  - exfalso. apply Hc. rewrite <- E. now apply in_map.
  - now apply IH.
Qed.


(** ** X1: listing all employees *)

(** X1: the unfiltered list (GET /employees) is the filtered list with the
    filter '%': every row's (id, name) in storage order. *)
Theorem list_all_is_percent_filter (tbl : table) :
  employees_filtered_page tbl [37] = employees tbl.
Proof.
  unfold employees_filtered_page, employees.
  rewrite <- (filter_true tbl) at 2 by reflexivity.
  rewrite (employees_filtered_by tbl [37] (fun _ => true)); [reflexivity|].
  intros r _. unfold sql_like. cbn. now rewrite any_suffix_empty_pattern.
Qed.

(** ** X2: the detail page *)

(** X2: on a table with unique ids, the detail page of an id text that
    parses to an in-range integer x shows exactly the row whose id is x, and
    the not-found page exactly when no row has id x; an id text that does
    not parse always gives the not-found page, and an out-of-range x raises
    OverflowError. *)
Theorem employee_page_lookup (int_of_str : pystr -> option Z)
  (tbl : table) (id : pystr) (x : Z)
  (Hp : int_of_str id = Some x) (Hx : fits_i64 x = true)
  (Hu : NoDup (map emp_id tbl)) :
  (forall e, employee_page int_of_str tbl id
             = Rendered "employee.html"%string (arg_employee e)
             <-> In e tbl /\ emp_id e = x) /\
  (employee_page int_of_str tbl id
     = Rendered "employee-not-found.html"%string no_arg
   <-> ~ In x (map emp_id tbl)) /\
  (forall id', int_of_str id' = None ->
     employee_page int_of_str tbl id'
     = Rendered "employee-not-found.html"%string no_arg) /\
  (forall id' y, int_of_str id' = Some y -> fits_i64 y = false ->
     employee_page int_of_str tbl id' = Raised "OverflowError"%string).
Proof.
  split; [|split; [|split]].
  - intros e. unfold employee_page, select_row. rewrite Hp, Hx.
    destruct (List.find _ tbl) as [e0|] eqn:Ef.
    + apply find_some in Ef as [He0 E0]. apply Z.eqb_eq in E0.
      split.
      * intros H. injection H as <-. now split.
      * intros [He E]. f_equal. f_equal.
        apply (NoDup_map_same emp_id tbl); congruence.
    + split; [discriminate|]. intros [He E].
      pose proof (find_none _ _ Ef e He) as Hf. cbv beta in Hf.
      rewrite E, Z.eqb_refl in Hf. discriminate.
  - unfold employee_page, select_row. rewrite Hp, Hx.
    destruct (List.find _ tbl) as [e0|] eqn:Ef.
    + split; [discriminate|]. intros Hn. exfalso. apply Hn.
      eapply find_id_some. exact Ef.
    + split; [intros _|reflexivity]. now apply find_id_none.
  - intros id' H. unfold employee_page. now rewrite H.
  - intros id' y H Hy. unfold employee_page, select_row. now rewrite H, Hy.
Qed.

Lemma employee_page_lookup_witness :
  employee_page py_int [alice_row; bob_row] (u "2")
  = Rendered "employee.html"%string (arg_employee bob_row).
Proof.
  apply (employee_page_lookup py_int [alice_row; bob_row] (u "2") 2).
  - vm_compute. reflexivity.
  - vm_compute. reflexivity.
  - repeat constructor; cbn; intuition discriminate.
  - split; [cbn; auto|reflexivity].
Defined.

(** ** X3: a successful Add, then the detail page *)



(** ** X4: repeating a successful Add *)

(** X4: after a successful Add, the same request again fails with
    'id-already-exists' and leaves the table as it is, whatever the storage
    engine would do. *)
Theorem add_twice_already_exists (int_of_str : pystr -> option Z)
  (tbl : table) (f : add_form) (d1 d2 : bool)
  (Hok : fst (employee_add_execute int_of_str tbl f d1)
         = Redirect employee_add_results_ep "added"%string) :
  employee_add_execute int_of_str
    (snd (employee_add_execute int_of_str tbl f d1)) f d2
  = (Redirect employee_add_results_ep "id-already-exists"%string,
     snd (employee_add_execute int_of_str tbl f d1)).
Proof.
  destruct (add_success_shape _ _ _ _ Hok)
    as [i [s [m [b [y [Hi [_ [_ [_ [_ [Hfit [_ Ht]]]]]]]]]]]].
  rewrite Ht. unfold employee_add_execute, parse_int_or. rewrite Hi.
  cbn [bind ret]. rewrite (select_id_fits _ _ Hfit).
  replace (in_table _ i) with true; [reflexivity|].
  symmetry. apply in_table_spec. rewrite map_app. apply in_or_app.
  right. now left.
Qed.

Lemma add_twice_already_exists_witness :
  employee_add_execute py_int
    (snd (employee_add_execute py_int [] alice_form false)) alice_form true
  = (Redirect employee_add_results_ep "id-already-exists"%string,
     [alice_row]).
Proof.
  rewrite (add_twice_already_exists py_int [] alice_form false true).
  - vm_compute. reflexivity.
  - vm_compute. reflexivity.
Defined.

(** ** Lemmas on updated and filtered tables *)

Lemma outcome_eq_dec (a b : outcome) : {a = b} + {a <> b}.
Proof. decide equality; first [apply string_dec | decide equality]. Defined.

Lemma find_map_same (h : employee -> employee) (g : employee -> bool)
  (l : table) :
  (forall r, g (h r) = g r) -> List.find g (map h l) = option_map h (List.find g l).
Proof.
  intros Hg. induction l as [|a l IH]; cbn; [reflexivity|].
  rewrite Hg. destruct (g a); [reflexivity|exact IH].
Qed.

Lemma filter_map_same (h : employee -> employee) (g : employee -> bool)
  (l : table) :
  (forall r, g (h r) = g r) -> (forall r, g r = true -> h r = r) ->
  filter g (map h l) = filter g l.
Proof.
  intros Hg Hh. induction l as [|a l IH]; cbn; [reflexivity|].
  rewrite Hg. destruct (g a) eqn:E; [rewrite (Hh a E); f_equal|]; exact IH.
Qed.

Lemma find_filter_out (l : table) (x : Z) :
  List.find (fun r => emp_id r =? x) (filter (fun r => negb (emp_id r =? x)) l)
  = None.
Proof.
  induction l as [|a l IH]; cbn; [reflexivity|].
  destruct (emp_id a =? x) eqn:E; cbn; [exact IH|now rewrite E].
Qed.

Lemma filter_keep_all (l : table) (x : Z) :
  ~ In x (map emp_id l) -> filter (fun r => negb (emp_id r =? x)) l = l.
Proof.
  induction l as [|a l IH]; cbn; intros H; [reflexivity|].
  destruct (Z.eqb_spec (emp_id a) x) as [E|E]; [exfalso; apply H; now left|].
  cbn. f_equal. apply IH. intros Hi. apply H. now right.
Qed.

Lemma filter_remove_one (l : table) (x : Z) :
  NoDup (map emp_id l) -> In x (map emp_id l) ->
  S (List.length (filter (fun r => negb (emp_id r =? x)) l)) = List.length l.
Proof.
  induction l as [|a l IH]; cbn; intros Hn Hi; [destruct Hi|].
  inversion Hn as [|? ? Ha Hl]; subst.
  destruct (Z.eqb_spec (emp_id a) x) as [E|E]; cbn.
  - rewrite E in Ha. now rewrite filter_keep_all.
  - destruct Hi as [Hi|Hi]; [contradiction|]. f_equal. now apply IH.
Qed.

(** The edit update [UPDATE ... WHERE id = x] as a function on rows. *)
Lemma edit_success_run (int_of_str : pystr -> option Z) (tbl : table)
  (id : pystr) (ef : edit_form) (x s m b y : Z) (e : employee)
  (Hx : int_of_str id = Some x) (Hs : int_of_str (e_salary ef) = Some s)
  (Hm : int_of_str (e_manager_id ef) = Some m)
  (Hb : int_of_str (e_birth_year ef) = Some b)
  (Hy : int_of_str (e_start_year ef) = Some y)
  (Hfx : fits_i64 x = true) (Hfs : fits_i64 s = true)
  (Hfm : fits_i64 m = true) (Hfb : fits_i64 b = true)
  (Hfy : fits_i64 y = true)
  (He : List.find (fun r => emp_id r =? x) tbl = Some e)
  (Hmgr : (x =? m) = true \/
          exists e', List.find (fun r => emp_id r =? m) tbl = Some e')
  (Hn : has_control_character (e_name ef) = false) :
  employee_edit_update int_of_str tbl id ef false
  = (Redirect employee_edit_results_ep "updated"%string,
     map (fun r => if emp_id r =? x
                   then mk_employee (emp_id r) (e_name ef) s m b y
                   else r) tbl).
Proof.
  unfold employee_edit_update, parse_int_or. rewrite Hx, Hs, Hm, Hb, Hy.
  destruct Hmgr as [E|[e' E]]; split_handler; first [reflexivity | congruence].
Qed.

(** ** X5: a successful Edit, then the detail page *)

(** X5: after a successful Edit of the record whose id text parses to x,
    the detail page of the same id text shows the record with id x and the
    submitted name, salary, manager_id, birth_year and start_year, and every
    row with another id is as it was. *)
Theorem edit_then_detail (int_of_str : pystr -> option Z) (tbl : table)
  (id : pystr) (ef : edit_form) (db_error : bool)
  (Hok : fst (employee_edit_update int_of_str tbl id ef db_error)
         = Redirect employee_edit_results_ep "updated"%string) :
  exists x s m b y,
    int_of_str id = Some x /\ int_of_str (e_salary ef) = Some s /\
    int_of_str (e_manager_id ef) = Some m /\
    int_of_str (e_birth_year ef) = Some b /\
    int_of_str (e_start_year ef) = Some y /\
    employee_page int_of_str
      (snd (employee_edit_update int_of_str tbl id ef db_error)) id
    = Rendered "employee.html"%string
        (arg_employee (mk_employee x (e_name ef) s m b y)) /\
    filter (fun r => negb (emp_id r =? x))
      (snd (employee_edit_update int_of_str tbl id ef db_error))
    = filter (fun r => negb (emp_id r =? x)) tbl.
Proof.
  destruct (edit_success_shape _ _ _ _ _ Hok)
    as [x [s [m [b [y [Hx [Hs [Hm [Hb [Hy [Hfx [_ [_ [_ [_ [[e He] [_ [_ Ht]]]]]]]]]]]]]]]]]].
  exists x, s, m, b, y. rewrite Ht. repeat split; try assumption.
  - unfold employee_page, select_row. rewrite Hx, Hfx.
    rewrite find_map_same
      by (intros r; cbn; destruct (emp_id r =? x) eqn:E; cbn; rewrite ?E; reflexivity).
    rewrite He. apply find_some in He as [_ E]. cbn. rewrite E.
    apply Z.eqb_eq in E. now rewrite E.
  - apply filter_map_same.
    + intros r. cbn. destruct (emp_id r =? x) eqn:E; cbn; rewrite ?E; reflexivity.
    + intros r E. apply negb_true_iff in E. now rewrite E.
Qed.

Lemma edit_then_detail_witness :
  fst (employee_edit_update py_int [alice_row; bob_row] (u "2") bob_edit false)
    = Redirect employee_edit_results_ep "updated"%string /\
  exists x s m b y,
    py_int (u "2") = Some x /\ py_int (e_salary bob_edit) = Some s /\
    py_int (e_manager_id bob_edit) = Some m /\
    py_int (e_birth_year bob_edit) = Some b /\
    py_int (e_start_year bob_edit) = Some y /\
    employee_page py_int
      (snd (employee_edit_update py_int [alice_row; bob_row] (u "2")
              bob_edit false)) (u "2")
    = Rendered "employee.html"%string
        (arg_employee (mk_employee x (e_name bob_edit) s m b y)) /\
    filter (fun r => negb (emp_id r =? x))
      (snd (employee_edit_update py_int [alice_row; bob_row] (u "2")
              bob_edit false))
    = filter (fun r => negb (emp_id r =? x)) [alice_row; bob_row].
Proof.
  split; [vm_compute; reflexivity|].
  apply edit_then_detail. vm_compute. reflexivity.
Defined.

(** ** X6: Edit keeps the ids *)

(** X6: whatever its outcome, an Edit request leaves the sequence of ids of
    the table, hence the number of rows, unchanged: it never adds, removes,
    renumbers or reorders records. *)
Theorem edit_keeps_ids (int_of_str : pystr -> option Z) (tbl : table)
  (id : pystr) (ef : edit_form) (db_error : bool) :
  map emp_id (snd (employee_edit_update int_of_str tbl id ef db_error))
  = map emp_id tbl /\
  List.length (snd (employee_edit_update int_of_str tbl id ef db_error))
  = List.length tbl.
Proof.
  assert (Hids : map emp_id (snd (employee_edit_update int_of_str tbl id ef db_error))
                 = map emp_id tbl).
  { destruct (outcome_eq_dec
                (fst (employee_edit_update int_of_str tbl id ef db_error))
                (Redirect employee_edit_results_ep "updated"%string)) as [Hok|Hko].
    - destruct (edit_success_shape _ _ _ _ _ Hok)
        as [x [s [m [b [y [_ [_ [_ [_ [_ [_ [_ [_ [_ [_ [_ [_ [_ Ht]]]]]]]]]]]]]]]]]].
      rewrite Ht, map_map. apply map_ext. intros r.
      destruct (emp_id r =? x); reflexivity.
    - now rewrite (edit_failure_keeps_table _ _ _ _ _ Hko). }
  split; [exact Hids|].
  rewrite <- (length_map emp_id), Hids. apply length_map.
Qed.

(** ** X7: repeating a successful Edit *)

(** X7: a successful Edit is idempotent: the same request again, when the
    storage engine does not fail, succeeds with 'updated' and leaves the
    table as the first one left it. *)
Theorem edit_idempotent (int_of_str : pystr -> option Z) (tbl : table)
  (id : pystr) (ef : edit_form) (db_error : bool)
  (Hok : fst (employee_edit_update int_of_str tbl id ef db_error)
         = Redirect employee_edit_results_ep "updated"%string) :
  employee_edit_update int_of_str
    (snd (employee_edit_update int_of_str tbl id ef db_error)) id ef false
  = (Redirect employee_edit_results_ep "updated"%string,
     snd (employee_edit_update int_of_str tbl id ef db_error)).
Proof.
  destruct (edit_success_shape _ _ _ _ _ Hok)
    as [x [s [m [b [y [Hx [Hs [Hm [Hb [Hy [Hfx [Hfs [Hfm [Hfb [Hfy [[e He] [Hmgr [Hn Ht]]]]]]]]]]]]]]]]]].
  set (upd := fun r : employee => if emp_id r =? x
              then mk_employee (emp_id r) (e_name ef) s m b y else r) in Ht.
  assert (Hid : forall k r, (emp_id (upd r) =? k) = (emp_id r =? k))
    by (intros k r; unfold upd; destruct (emp_id r =? x); reflexivity).
  rewrite Ht.
  rewrite (edit_success_run int_of_str (map upd tbl) id ef x s m b y (upd e));
    try assumption.
  - f_equal. rewrite map_map. apply map_ext. intros r. unfold upd. cbn.
    destruct (emp_id r =? x) eqn:E; cbn; rewrite ?E; reflexivity.
  - rewrite find_map_same by apply Hid. now rewrite He.
  - destruct Hmgr as [E|[e' E]]; [now left|right].
    exists (upd e'). rewrite find_map_same by apply Hid. now rewrite E.
Qed.

Lemma edit_idempotent_witness :
  fst (employee_edit_update py_int [alice_row; bob_row] (u "2") bob_edit true)
    = Redirect employee_edit_results_ep "database-error"%string /\
  fst (employee_edit_update py_int [alice_row; bob_row] (u "2") bob_edit false)
    = Redirect employee_edit_results_ep "updated"%string /\
  employee_edit_update py_int
    (snd (employee_edit_update py_int [alice_row; bob_row] (u "2")
            bob_edit false)) (u "2") bob_edit false
  = (Redirect employee_edit_results_ep "updated"%string,
     snd (employee_edit_update py_int [alice_row; bob_row] (u "2")
            bob_edit false)).
Proof.
  split; [vm_compute; reflexivity|].
  split; [vm_compute; reflexivity|].
  apply edit_idempotent. vm_compute. reflexivity.
Defined.

(** ** X8: a successful Delete, then the detail page and a second Delete *)

(** X8: after a successful Delete, the detail page of the same id text is
    the not-found page, and the same Delete again fails with the code
    'id-does-not-exsit' and leaves the table as it is. *)
Theorem delete_then_gone (int_of_str : pystr -> option Z) (tbl : table)
  (id : pystr) (d1 d2 : bool)
  (Hok : fst (employee_del_execute int_of_str tbl id d1)
         = Redirect employee_add_results_ep "deleted"%string) :
  employee_page int_of_str (snd (employee_del_execute int_of_str tbl id d1)) id
  = Rendered "employee-not-found.html"%string no_arg /\
  employee_del_execute int_of_str
    (snd (employee_del_execute int_of_str tbl id d1)) id d2
  = (Redirect employee_del_results_ep "id-does-not-exsit"%string,
     snd (employee_del_execute int_of_str tbl id d1)).
Proof.
  destruct (del_success_shape _ _ _ _ Hok) as [x [Hx [Hfx [_ Ht]]]].
  rewrite Ht. split.
  - unfold employee_page, select_row. now rewrite Hx, Hfx, find_filter_out.
  - unfold employee_del_execute, parse_int_or. rewrite Hx. cbn [bind ret].
    unfold select_id, bind_int. rewrite Hfx. cbn [bind ret].
    rewrite find_filter_out. reflexivity.
Qed.

Lemma delete_then_gone_witness :
  fst (employee_del_execute py_int [alice_row; bob_row] (u "2") false)
    = Redirect employee_add_results_ep "deleted"%string /\
  employee_page py_int
    (snd (employee_del_execute py_int [alice_row; bob_row] (u "2") false))
    (u "2")
  = Rendered "employee-not-found.html"%string no_arg /\
  employee_del_execute py_int
    (snd (employee_del_execute py_int [alice_row; bob_row] (u "2") false))
    (u "2") true
  = (Redirect employee_del_results_ep "id-does-not-exsit"%string,
     snd (employee_del_execute py_int [alice_row; bob_row] (u "2") false)).
Proof.
  split; [vm_compute; reflexivity|].
  apply delete_then_gone. vm_compute. reflexivity.
Defined.

(** ** X9: a successful Delete removes exactly one row *)

(** X9: on a table with unique ids, a successful Delete removes exactly the
    row whose id is the parsed id and keeps every other row, so the table
    has one row fewer. *)
Theorem delete_removes_one (int_of_str : pystr -> option Z) (tbl : table)
  (id : pystr) (db_error : bool)
  (Hu : NoDup (map emp_id tbl))
  (Hok : fst (employee_del_execute int_of_str tbl id db_error)
         = Redirect employee_add_results_ep "deleted"%string) :
  exists e,
    In e tbl /\ int_of_str id = Some (emp_id e) /\
    ~ In e (snd (employee_del_execute int_of_str tbl id db_error)) /\
    (forall r, In r tbl -> r <> e ->
       In r (snd (employee_del_execute int_of_str tbl id db_error))) /\
    S (List.length (snd (employee_del_execute int_of_str tbl id db_error)))
    = List.length tbl.
Proof.
  destruct (del_success_shape _ _ _ _ Hok) as [x [Hx [_ [[e He] Ht]]]].
  apply find_some in He as [Hin E]. apply Z.eqb_eq in E. subst x.
  exists e. rewrite Ht. repeat split; try assumption.
  - rewrite filter_In. intros [_ H]. now rewrite Z.eqb_refl in H.
  - intros r Hr Hne. apply filter_In. split; [exact Hr|].
    apply negb_true_iff. apply Z.eqb_neq. intros E.
    apply Hne. now apply (NoDup_map_same emp_id tbl).
  - apply filter_remove_one; [exact Hu|now apply in_map].
Qed.

Lemma delete_removes_one_witness :
  NoDup (map emp_id [alice_row; bob_row]) /\
  fst (employee_del_execute py_int [alice_row; bob_row] (u "2") false)
    = Redirect employee_add_results_ep "deleted"%string /\
  exists e,
    In e [alice_row; bob_row] /\ py_int (u "2") = Some (emp_id e) /\
    ~ In e (snd (employee_del_execute py_int [alice_row; bob_row] (u "2") false)) /\
    (forall r, In r [alice_row; bob_row] -> r <> e ->
       In r (snd (employee_del_execute py_int [alice_row; bob_row] (u "2") false))) /\
    S (List.length (snd (employee_del_execute py_int [alice_row; bob_row] (u "2") false)))
    = List.length [alice_row; bob_row].
Proof.
  assert (Hu : NoDup (map emp_id [alice_row; bob_row]))
    by (repeat constructor; cbn; intuition discriminate).
  split; [exact Hu|]. split; [vm_compute; reflexivity|].
  apply delete_removes_one; [exact Hu|vm_compute; reflexivity].
Defined.

(** ** X10, X11: the confirmation pages and the POST handlers agree *)

Section PageAgreement.

Local Opaque fits_i64 has_control_character Z.eqb.

(** X10: the delete confirmation page (GET /employee-del/<id>) and the
    delete request (POST /employee-del-execute/<id>) judge an id the same
    way: the confirmation page is shown exactly when the request, with a
    storage engine that does not fail, deletes; the page shows the
    invalid-characters, does-not-exist and has-subordinates messages exactly
    when the request fails with 'id-has-invalid-charactor',
    'id-does-not-exsit' and 'id-is-manager'; and one raises OverflowError
    exactly when the other does. *)
Theorem del_page_agrees_with_post (int_of_str : pystr -> option Z)
  (tbl : table) (id : pystr) (db_error : bool) :
  ((exists x, employee_del int_of_str tbl id
              = Rendered "employee-del.html"%string (arg_id x)) <->
   fst (employee_del_execute int_of_str tbl id false)
   = Redirect employee_add_results_ep "deleted"%string) /\
  (employee_del int_of_str tbl id
   = Rendered "employee-del-results.html"%string
       (arg_results "指定された社員番号には使えない文字があります"%string) <->
   fst (employee_del_execute int_of_str tbl id db_error)
   = Redirect employee_del_results_ep "id-has-invalid-charactor"%string) /\
  (employee_del int_of_str tbl id
   = Rendered "employee-del-results.html"%string
       (arg_results "指定された社員番号は存在しません"%string) <->
   fst (employee_del_execute int_of_str tbl id db_error)
   = Redirect employee_del_results_ep "id-does-not-exsit"%string) /\
  (employee_del int_of_str tbl id
   = Rendered "employee-del-results.html"%string
       (arg_results ("指定された社員番号の社員には部下がいます - " ++
                     "部下に登録された上司を変更してから削除してください"))%string <->
   fst (employee_del_execute int_of_str tbl id db_error)
   = Redirect employee_del_results_ep "id-is-manager"%string) /\
  (employee_del int_of_str tbl id = Raised "OverflowError"%string <->
   fst (employee_del_execute int_of_str tbl id db_error)
   = Uncaught "OverflowError"%string).
Proof.
  unfold employee_del, employee_del_execute. split_handler.
  all: repeat split; intros H;
    first [ reflexivity | eexists; reflexivity | discriminate H
          | destruct H as [? H]; discriminate H ].
Qed.

(** X11: the edit form page (GET /employee-edit/<id>) and the edit request
    (POST /employee-edit-update/<id>) judge the id the same way: the page
    shows the invalid-characters and does-not-exist messages exactly when
    the request fails with 'id-has-invalid-charactor' and
    'id-does-not-exist', whatever the submitted fields; when the page raises
    OverflowError so does the request; and the form is prefilled with the
    stored record whose id is the parsed id. *)
Theorem edit_page_agrees_with_post (int_of_str : pystr -> option Z)
  (tbl : table) (id : pystr) (ef : edit_form) (db_error : bool) :
  (employee_edit int_of_str tbl id
   = Rendered "employee-edit-results.html"%string
       (arg_results "指定された社員番号には使えない文字があります"%string) <->
   fst (employee_edit_update int_of_str tbl id ef db_error)
   = Redirect employee_edit_results_ep "id-has-invalid-charactor"%string) /\
  (employee_edit int_of_str tbl id
   = Rendered "employee-edit-results.html"%string
       (arg_results "指定された社員番号は存在しません"%string) <->
   fst (employee_edit_update int_of_str tbl id ef db_error)
   = Redirect employee_edit_results_ep "id-does-not-exist"%string) /\
  (employee_edit int_of_str tbl id = Raised "OverflowError"%string ->
   fst (employee_edit_update int_of_str tbl id ef db_error)
   = Uncaught "OverflowError"%string) /\
  (forall e, employee_edit int_of_str tbl id
             = Rendered "employee-edit.html"%string (arg_employee e) ->
   int_of_str id = Some (emp_id e) /\ In e tbl).
Proof.
  split; [|split; [|split]].
  4: { intros e. unfold employee_edit, select_row.
       destruct (int_of_str id) as [x|]; [|intros H; discriminate H].
       destruct (fits_i64 x); [|intros H; discriminate H].
       destruct (List.find _ tbl) as [e0|] eqn:Hf; [|intros H; discriminate H].
       intros H. injection H as <-. apply find_some in Hf as [Hin E].
       apply Z.eqb_eq in E. now rewrite E. }
  all: unfold employee_edit, select_row, employee_edit_update; split_handler.
  all: repeat split; intros H; first [ reflexivity | discriminate H ].
Qed.

End PageAgreement.

(** ** X12: the result codes and the escaping exceptions *)

Section Codes.

Local Opaque fits_i64 has_control_character Z.eqb.


End Codes.

(** ** X13: the name filter's pattern limit *)



(** ** X14: deleting an employee who is their own manager *)

Lemma find_none_all (g : employee -> bool) (l : table) :
  (forall r, In r l -> g r = false) -> List.find g l = None.
Proof.
  induction l as [|a l IH]; cbn; intros H; [reflexivity|].
  rewrite (H a (or_introl eq_refl)). apply IH. intros r Hr. apply H. now right.
Qed.

(** X14: a record that exists and has no subordinate other than itself (a
    manager_id equal to its own id does not count) is deleted by a Delete
    request when the storage engine does not fail, and its confirmation page
    is shown. *)
Theorem delete_self_managed (int_of_str : pystr -> option Z) (tbl : table)
  (id : pystr) (x : Z) (e : employee)
  (Hx : int_of_str id = Some x) (Hfx : fits_i64 x = true)
  (He : In e tbl) (Hex : emp_id e = x)
  (Hsub : forall r, In r tbl -> emp_manager_id r = x -> emp_id r = x) :
  employee_del_execute int_of_str tbl id false
  = (Redirect employee_add_results_ep "deleted"%string,
     filter (fun r => negb (emp_id r =? x)) tbl) /\
  employee_del int_of_str tbl id
  = Rendered "employee-del.html"%string (arg_id x).
Proof.
  assert (Hf : exists e', List.find (fun r => emp_id r =? x) tbl = Some e').
  { destruct (List.find _ tbl) as [e'|] eqn:Hf; [now exists e'|].
    pose proof (find_none _ _ Hf e He) as H. cbv beta in H.
    rewrite Hex, Z.eqb_refl in H. discriminate. }
  destruct Hf as [e' Hf].
  assert (Hm : List.find (fun r => (emp_manager_id r =? x) && negb (emp_id r =? x))
                 tbl = None).
  { apply find_none_all. intros r Hr.
    destruct (Z.eqb_spec (emp_manager_id r) x) as [E|E]; [|reflexivity].
    rewrite (Hsub r Hr E), Z.eqb_refl. reflexivity. }
  split.
  - unfold employee_del_execute, parse_int_or. rewrite Hx. cbn [bind ret].
    unfold select_id, select_member, delete_rows, bind_int. rewrite Hfx.
    cbn [bind ret]. rewrite Hf, Hm. reflexivity.
  - unfold employee_del. rewrite Hx.
    unfold select_id, select_member, bind_int. rewrite Hfx.
    cbn [bind ret]. rewrite Hf, Hm. reflexivity.
Qed.

Lemma delete_self_managed_witness :
  employee_del_execute py_int [alice_row] (u "1") false
  = (Redirect employee_add_results_ep "deleted"%string, []) /\
  employee_del py_int [alice_row] (u "1")
  = Rendered "employee-del.html"%string (arg_id 1).
Proof.
  apply (delete_self_managed py_int [alice_row] (u "1") 1 alice_row).
  - vm_compute. reflexivity.
  - vm_compute. reflexivity.
  - now left.
  - reflexivity.
  - intros r [<-|[]] _. reflexivity.
Defined.

